(** * The bearer-token authenticator [protect] (auth.middleware.js)

    A shallow embedding of the Express middleware

    <<
    export const protect = (req, res, next) => {
      const auth = req.headers.authorization;
      if (!auth || !auth.startsWith("Bearer ")) {
        return res.status(401).json({ message: "Unauthorized, no token" });
      }
      const token = auth.split(" ")[1];
      try {
        const decoded = jwt.verify(token, process.env.JWT_SECRET);
        req.user = decoded.id;
        next();
      } catch (error) {
        return res.status(401).json({ message: "Invalid or expired token" });
      }
    };
    >>

    The middleware is effectful: it reads the request and the process
    environment, writes [req.user], talks to the response object and to
    the [next] callback, and intercepts exceptions.  It is modelled in a
    state-and-exception monad whose state carries the request, the
    environment, the clock and the log of the calls the middleware makes
    on its collaborators ([jwt.verify], [res.status], [res.json],
    [next]).  The [jsonwebtoken] library and the [next] callback are not
    part of the repository; they are parameters of the development. *)

From Stdlib Require Import ZArith String Ascii List.
From stdpp Require Import base option list strings gmap.

(** ** JavaScript data *)

(** The JavaScript values that can sit in a decoded claim or in
    [req.user].  [JNum] stands for integer-valued numbers. *)
Inductive jsval : Type :=
  | JUndefined
  | JNull
  | JBool (b : bool)
  | JNum (n : Z)
  | JStr (s : string).

(** A thrown [Error] object. *)
Record JsError : Type := mkError { err_name : string; err_message : string }.

(** How a JavaScript statement can complete. *)
Inductive completion (A : Type) : Type :=
  | Normal (a : A)
  | Throw (e : JsError).
Arguments Normal {A} a.
Arguments Throw {A} e.

(** The string methods used by the middleware.  Header values are
    sequences of one-byte characters, as [string] is. *)
Module JsString.

(** [s.startsWith(p)] *)
Fixpoint startsWith (s p : string) {struct p} : bool :=
  match p with
  | EmptyString => true
  | String c p' =>
      match s with
      | EmptyString => false
      | String d s' => if Ascii.eqb d c then startsWith s' p' else false
      end
  end.

(** [s.split(sep)] for a separator of one character: the pieces of
    [s] between consecutive occurrences of [sep], in order.  The
    result is never empty ([""] splits into [[""]]). *)
Fixpoint split (s : string) (sep : ascii) : list string :=
  match s with
  | EmptyString => [EmptyString]
  | String c s' =>
      if Ascii.eqb c sep then EmptyString :: split s' sep
      else match split s' sep with
           | [] => [String c EmptyString]
           | piece :: pieces => String c piece :: pieces
           end
  end.

(** [!s] for a string or [undefined]: only [undefined] and [""] are
    falsy. *)
Definition falsy (s : option string) : bool :=
  match s with
  | None => true
  | Some EmptyString => true
  | Some (String _ _) => false
  end.

(** Does the character occur in the string? *)
Fixpoint occurs (c : ascii) (s : string) : bool :=
  match s with
  | EmptyString => false
  | String d s' => Ascii.eqb d c || occurs c s'
  end.

End JsString.

(** The result of a successful [jwt.verify]: the payload of the token,
    an object or (for a payload that is not a JSON object) a string. *)
Inductive decoded : Type :=
  | DObj (o : gmap string jsval)
  | DStr (s : string).

(** [decoded.id]: a missing property reads as [undefined], and a string
    has no property [id]. *)
Definition decoded_id (d : decoded) : jsval :=
  match d with
  | DObj o => default JUndefined (o !! "id")
  | DStr _ => JUndefined
  end.

(** ** The request, the log and the state *)

(** The parts of [req] the middleware touches: [req.headers.authorization]
    ([None] when the header is absent) and [req.user]. *)
Record Request : Type := mkRequest {
  authorization : option string;
  user : jsval
}.

Definition with_user (r : Request) (v : jsval) : Request :=
  {| authorization := authorization r; user := v |}.

(** The calls the middleware makes on its collaborators, in order. *)
Inductive event : Type :=
  | EVerify (token : option string) (secret : option string)
      (* jwt.verify(token, secret) *)
  | ENext (r : Request)
      (* next(), with the request as it is at that moment *)
  | EStatus (code : Z)
      (* res.status(code) *)
  | EJson (body : gmap string jsval).
      (* res.json(body) *)

Record State : Type := mkState {
  req : Request;
  env : gmap string string;   (* process.env *)
  now : Z;                    (* the clock jwt.verify reads *)
  log : list event
}.

Definition emit (e : event) (s : State) : State :=
  {| req := req s; env := env s; now := now s; log := log s ++ [e] |}.

Definition put_req (r : Request) (s : State) : State :=
  {| req := r; env := env s; now := now s; log := log s |}.

(** ** The monad of middleware code *)

Definition M (A : Type) : Type := State -> completion A * State.

#[global] Instance M_ret : MRet M := fun A a s => (Normal a, s).

#[global] Instance M_bind : MBind M := fun A B f m s =>
  match m s with
  | (Normal a, s') => f a s'
  | (Throw e, s') => (Throw e, s')
  end.

(** [try { body } catch (error) { handler }]: what [body] did to the
    state before it threw stays done. *)
Definition try_catch {A} (body : M A) (handler : JsError -> M A) : M A :=
  fun s =>
    match body s with
    | (Normal a, s') => (Normal a, s')
    | (Throw e, s') => handler e s'
    end.

(** [req.headers.authorization] *)
Definition get_authorization : M (option string) :=
  fun s => (Normal (authorization (req s)), s).

(** [process.env[name]] *)
Definition getenv (name : string) : M (option string) :=
  fun s => (Normal (env s !! name), s).

(** [req.user = v] *)
Definition set_user (v : jsval) : M unit :=
  fun s => (Normal tt, put_req (with_user (req s) v) s).

(** [res.status(code)] and [res.json(body)]; neither throws. *)
Definition res_status (code : Z) : M unit :=
  fun s => (Normal tt, emit (EStatus code) s).

Definition res_json (body : gmap string jsval) : M unit :=
  fun s => (Normal tt, emit (EJson body) s).

(** The two bodies the middleware sends. *)
Definition no_token_body : gmap string jsval :=
  {[ "message" := JStr "Unauthorized, no token" ]}.

Definition invalid_token_body : gmap string jsval :=
  {[ "message" := JStr "Invalid or expired token" ]}.

(** The request as [next] receives it once the claim [d] is decoded. *)
Definition request_for_next (s : State) (d : decoded) : Request :=
  with_user (req s) (decoded_id d).

Section Middleware.

(** [jwt.verify(token, secretOrPublicKey)] of the jsonwebtoken
    library, called without a callback: it returns the decoded
    payload or throws.  The third argument is the time at which it is
    called.  A token or a secret that is [undefined] is [None]. *)
Variable jwt_verify : option string -> option string -> Z -> decoded + JsError.

(** The [next] callback: what the rest of the pipeline does with the
    request, and whether it returns or throws into its caller. *)
Variable next : Request -> completion unit * Request.

Definition call_verify (token secret : option string) : M decoded :=
  fun s =>
    let s' := emit (EVerify token secret) s in
    match jwt_verify token secret (now s) with
    | inl d => (Normal d, s')
    | inr e => (Throw e, s')
    end.

Definition call_next : M unit :=
  fun s =>
    let s' := emit (ENext (req s)) s in
    match next (req s) with
    | (Normal _, r) => (Normal tt, put_req r s')
    | (Throw e, r) => (Throw e, put_req r s')
    end.

(** [return res.status(401).json(body)] *)
Definition reject (body : gmap string jsval) : M unit :=
  res_status 401;; res_json body.

(** [auth.split(" ")[1]]; [None] is [undefined]. *)
Definition bearer_token (auth : string) : option string :=
  JsString.split auth " " !! 1%nat.

Definition protect : M unit :=
  auth ← get_authorization;
  match auth with
  | None => reject no_token_body      (* !auth, for undefined *)
  | Some a =>
      (* !auth || !auth.startsWith("Bearer ") *)
      if JsString.falsy auth || negb (JsString.startsWith a "Bearer ")
      then reject no_token_body
      else
        let token := bearer_token a in
        try_catch
          (secret ← getenv "JWT_SECRET";
           decoded ← call_verify token secret;
           set_user (decoded_id decoded);;
           call_next)
          (fun _ => reject invalid_token_body)
  end.

(** Handling the request of state [s]: how the middleware completes,
    the state it leaves, and the calls it made on the way. *)
Definition outcome (s : State) : completion unit := (protect s).1.

Definition final (s : State) : State := (protect s).2.

Definition calls (s : State) : list event :=
  drop (length (log s)) (log (final s)).

(** The four ways through the middleware. *)
Inductive way (s : State) : Prop :=
  | NoToken :
      (authorization (req s) = None \/
       exists a, authorization (req s) = Some a /\
                 JsString.startsWith a "Bearer " = false) ->
      way s
  | Refused a e :
      authorization (req s) = Some a ->
      JsString.startsWith a "Bearer " = true ->
      jwt_verify (bearer_token a) (env s !! "JWT_SECRET") (now s) = inr e ->
      way s
  | Returned a d :
      authorization (req s) = Some a ->
      JsString.startsWith a "Bearer " = true ->
      jwt_verify (bearer_token a) (env s !! "JWT_SECRET") (now s) = inl d ->
      (next (request_for_next s d)).1 = Normal tt ->
      way s
  | Thrown a d e :
      authorization (req s) = Some a ->
      JsString.startsWith a "Bearer " = true ->
      jwt_verify (bearer_token a) (env s !! "JWT_SECRET") (now s) = inl d ->
      (next (request_for_next s d)).1 = Throw e ->
      way s.

End Middleware.

(** What a list of calls says about the fate of the request. *)
Definition forwarded (l : list event) : Prop := exists r, ENext r ∈ l.

Definition answered_401 (l : list event) : Prop := EStatus 401 ∈ l.

Definition verified (l : list event) : Prop := exists t k, EVerify t k ∈ l.

(** ** What is assumed of the jsonwebtoken library

    The library is not part of the repository.  Where a property of the
    middleware rests on the behaviour of the library, the theorem names
    the behaviour it uses, one of the following. *)

Section Library.

Variable jwt_verify : option string -> option string -> Z -> decoded + JsError.

(** A token that verifies is a compact JWS, three base64url segments
    joined by dots: it holds no space. *)
Definition verified_tokens_have_no_space : Prop :=
  forall tok secret time d,
    jwt_verify (Some tok) secret time = inl d -> JsString.occurs " " tok = false.

(** [jwt.verify("", ...)] throws ("jwt must be provided"). *)
Definition empty_token_is_refused : Prop :=
  forall secret time, exists e, jwt_verify (Some EmptyString) secret time = inr e.

(** [jwt.verify(token, undefined)] throws, whatever the token
    (jsonwebtoken 9: "secret or public key must be provided", and an
    unsigned token is refused unless the caller asks for it). *)
Definition secret_is_required : Prop :=
  forall token time, exists e, jwt_verify token None time = inr e.

(** A claim [{ id }] signed with a non-empty secret verifies under the
    same secret at the time of signing, and decodes to an object with
    the same [id]. *)
Definition signed_id_verifies
    (jwt_sign : gmap string jsval -> string -> Z -> string) : Prop :=
  forall id secret time,
    secret <> EmptyString ->
    exists d,
      jwt_verify (Some (jwt_sign {[ "id" := JStr id ]} secret time))
        (Some secret) time = inl d /\
      decoded_id d = JStr id.

End Library.

(** ** What is assumed of the Express router

    Express is not part of the repository either.  The router that
    mounts [protect] (user.routes.js) calls every handler inside a
    [try]/[catch]: an exception of a later handler is caught by the
    router and handed to its error handling, which answers 500 by
    default, and the [next()] of the earlier handler returns
    normally. *)


(** The [next] that the router hands to a middleware followed by
    [handler]: it runs the handler, keeps what the handler did to the
    request, and returns normally also when the handler throws. *)
Definition router_next (handler : Request -> completion unit * Request)
    : Request -> completion unit * Request :=
  fun r => (Normal tt, (handler r).2).

(** ** The text of the specification, for comparison *)

(** The token as the specification words it: "the entire substring of
    the header after the first space". *)
Fixpoint spec_token (auth : string) : string :=
  match auth with
  | EmptyString => EmptyString
  | String c rest => if Ascii.eqb c " " then rest else spec_token rest
  end.

(** ** The login flow *)

Section Login.

(** [jwt.sign(payload, secret, options)] of the jsonwebtoken library,
    called at the given time with a secret that is a string. *)
Variable jwt_sign : gmap string jsval -> string -> Z -> string.

(** Modelled from the spec: the login flow ([loginUser] of
    user.controller.js, which is not among the sources) is "a
    login/registration flow that issues tokens using the same secret
    and claim format"; the claim it signs carries the identity of the
    user in its field [id]. *)
Definition login_token (secret : string) (time : Z) (id : string) : string :=
  jwt_sign {[ "id" := JStr id ]} secret time.

End Login.

(** ** A small stand-in for the library

    An executable [sign]/[verify] pair with the shape of the real one,
    on which the theorems below are exercised at concrete requests.  A
    token is [encode id ++ "." ++ encode secret], where [encode] writes
    every character as two characters of the range ['@'..'O']. *)
Module Demo.

Definition enc_lo (c : ascii) : ascii :=
  match c with
  | Ascii b0 b1 b2 b3 _ _ _ _ => Ascii b0 b1 b2 b3 false false true false
  end.

Definition enc_hi (c : ascii) : ascii :=
  match c with
  | Ascii _ _ _ _ b4 b5 b6 b7 => Ascii b4 b5 b6 b7 false false true false
  end.

Definition is_code (c : ascii) : bool :=
  match c with
  | Ascii _ _ _ _ false false true false => true
  | _ => false
  end.

Definition dec (h l : ascii) : ascii :=
  match h, l with
  | Ascii b4 b5 b6 b7 _ _ _ _, Ascii b0 b1 b2 b3 _ _ _ _ =>
      Ascii b0 b1 b2 b3 b4 b5 b6 b7
  end.

Fixpoint encode (s : string) : string :=
  match s with
  | EmptyString => EmptyString
  | String c s' => String (enc_hi c) (String (enc_lo c) (encode s'))
  end.

Fixpoint decode (s : string) : option string :=
  match s with
  | EmptyString => Some EmptyString
  | String h (String l s') =>
      if is_code h && is_code l
      then match decode s' with
           | Some t => Some (String (dec h l) t)
           | None => None
           end
      else None
  | String _ EmptyString => None
  end.

Definition id_text (payload : gmap string jsval) : string :=
  match payload !! "id" with
  | Some (JStr i) => i
  | _ => EmptyString
  end.

Definition sign (payload : gmap string jsval) (secret : string) (time : Z) : string :=
  encode (id_text payload) +:+ "." +:+ encode secret.

Definition jwt_error (msg : string) : JsError := mkError "JsonWebTokenError" msg.

Definition verify (token secret : option string) (time : Z) : decoded + JsError :=
  match token with
  | None | Some EmptyString => inr (jwt_error "jwt must be provided")
  | Some tok =>
      if JsString.occurs " " tok then inr (jwt_error "jwt malformed") else
      match JsString.split tok "." with
      | [body; sig] =>
          match decode body with
          | None => inr (jwt_error "invalid token")
          | Some i =>
              match secret with
              | None | Some EmptyString =>
                  inr (jwt_error "secret or public key must be provided")
              | Some key =>
                  if String.eqb sig (encode key)
                  then inl (DObj {[ "id" := JStr i ]})
                  else inr (jwt_error "invalid signature")
              end
          end
      | _ => inr (jwt_error "jwt malformed")
      end
  end.

(** A pipeline that handles the request and returns, and one whose
    handler throws. *)
Definition next_returns (r : Request) : completion unit * Request :=
  (Normal tt, r).

Definition next_throws (r : Request) : completion unit * Request :=
  (Throw (mkError "TypeError" "handler failed"), r).

(** A request arriving with the given header, in a process whose
    environment holds the given secret. *)
Definition arrival (header : option string) (secret : option string) : State :=
  {| req := {| authorization := header; user := JUndefined |};
     env := match secret with
            | Some k => {[ "JWT_SECRET" := k ]}
            | None => ∅
            end;
     now := 1700000000;
     log := [] |}.

(** The requests of the scenarios: a token for the identity ["42"]
    signed with the secret of the process, the same token in a process
    without a secret, a token signed with another secret, and headers
    that carry no usable token. *)
Definition secret : string := "s3cret".

Definition token_42 : string := "CDCB.GCCCFCGBFEGD".

Definition good_request : State := arrival (Some "Bearer CDCB.GCCCFCGBFEGD") (Some secret).

Definition no_secret_request : State := arrival (Some "Bearer CDCB.GCCCFCGBFEGD") None.

Definition forged_request : State := arrival (Some "Bearer CDCB.FOGDFHFEGB") (Some secret).

Definition basic_request : State := arrival (Some "Basic xyz") (Some secret).

Definition empty_token_request : State := arrival (Some "Bearer ") (Some secret).

Definition two_spaces_request : State := arrival (Some "Bearer a b") (Some secret).

Definition login_request (id : string) : State :=
  arrival (Some ("Bearer " +:+ login_token sign secret 1700000000 id)) (Some secret).

End Demo.


(** Further requests, and a library whose claims name the identity
    [sub] instead of [id]. *)
Module Scenario.

Definition verify_sub (token secret : option string) (time : Z) : decoded + JsError :=
  match Demo.verify token secret time with
  | inl d => inl (DObj {[ "sub" := decoded_id d ]})
  | inr e => inr e
  end.

Definition two_spaces_after_scheme : State :=
  Demo.arrival (Some "Bearer  CDCB.GCCCFCGBFEGD") (Some Demo.secret).

Definition text_after_token : State :=
  Demo.arrival (Some "Bearer CDCB.GCCCFCGBFEGD and more") (Some Demo.secret).

(** The good request, arriving later in the life of the process: with
    [req.user] already set by someone else, calls of an earlier request
    in the log, and another variable in the environment. *)
Definition later_request : State :=
  {| req := {| authorization := Some "Bearer CDCB.GCCCFCGBFEGD";
               user := JStr "admin" |};
     env := <[ "PORT" := "3000" ]> {[ "JWT_SECRET" := Demo.secret ]};
     now := 1700000000;
     log := [EStatus 401; EJson no_token_body] |}.

End Scenario.

(** ** The profile route (user.routes.js)

    <<
    router.get("/profile", protect, (req, res) => {
      res.json({ message: "This is a protected route", user: req.user });
    });
    >>

    In a route the [next] of a handler runs the handlers that follow it,
    on the same [req] and [res]: what they call is seen in the same log,
    after the call of [next]. *)

(** The calls of a list that send a response body. *)
Definition is_response (e : event) : bool :=
  match e with
  | EJson _ => true
  | _ => false
  end.

Definition responses (l : list event) : list event := List.filter is_response l.

(** A [next] callback as the rest of a pipeline, acting on the state. *)
Definition as_rest (next : Request -> completion unit * Request) : M unit :=
  fun s =>
    match next (req s) with
    | (Normal _, r) => (Normal tt, put_req r s)
    | (Throw e, r) => (Throw e, put_req r s)
    end.

(** [(req, res) => { res.json({ message: ..., user: req.user }) }] *)
Definition profile_body (r : Request) : gmap string jsval :=
  <[ "user" := user r ]> {[ "message" := JStr "This is a protected route" ]}.

Definition profile_handler : M unit :=
  fun s => res_json (profile_body (req s)) s.

Section Route.

Variable jwt_verify : option string -> option string -> Z -> decoded + JsError.

(** [next()], when [next] runs the handlers [rest] of the route: the
    router catches what they throw, and [next()] returns normally. *)
Definition call_rest (rest : M unit) : M unit :=
  fun s =>
    match rest (emit (ENext (req s)) s) with
    | (Normal _, s') => (Normal tt, s')
    | (Throw _, s') => (Normal tt, s')
    end.

(** [protect] as a handler of a route whose later handlers are [rest]:
    the body of [protect], with [next()] running [rest]. *)
Definition protect_then (rest : M unit) : M unit :=
  auth ← get_authorization;
  match auth with
  | None => reject no_token_body
  | Some a =>
      if JsString.falsy auth || negb (JsString.startsWith a "Bearer ")
      then reject no_token_body
      else
        let token := bearer_token a in
        try_catch
          (secret ← getenv "JWT_SECRET";
           decoded ← call_verify jwt_verify token secret;
           set_user (decoded_id decoded);;
           call_rest rest)
          (fun _ => reject invalid_token_body)
  end.

(** [GET /profile]: [protect], then the handler. *)
Definition profile_route : M unit := protect_then profile_handler.

Definition route_calls (s : State) : list event :=
  drop (length (log s)) (log (profile_route s).2).

End Route.

(** * Properties *)

(** ** Strings *)

Lemma startsWith_append (p r : string) : JsString.startsWith (p +:+ r) p = true.
Proof.
  induction p as [|c p IH]; simpl.
  - reflexivity.
  - rewrite Ascii.eqb_refl. exact IH.
Qed.

Lemma startsWith_inv (p s : string) :
  JsString.startsWith s p = true -> exists r, s = p +:+ r.
Proof.
  revert s. induction p as [|c p IH]; intros s H; simpl in *.
  - exists s. reflexivity.
  - destruct s as [|d s]; [discriminate|].
    destruct (Ascii.eqb_spec d c) as [->|]; [|discriminate].
    destruct (IH s H) as [r ->]. exists r. reflexivity.
Qed.

Lemma split_not_nil (s : string) (sep : ascii) : JsString.split s sep <> [].
Proof.
  destruct s as [|c s]; simpl; [discriminate|].
  destruct (Ascii.eqb c sep); [discriminate|].
  destruct (JsString.split s sep); discriminate.
Qed.

Lemma split_without_sep (s : string) (sep : ascii) :
  JsString.occurs sep s = false -> JsString.split s sep = [s].
Proof.
  induction s as [|c s IH]; simpl; intros H.
  - reflexivity.
  - apply orb_false_iff in H as [Hc Hs]. rewrite Hc, (IH Hs). reflexivity.
Qed.

Lemma split_at_first_sep (a b : string) (sep : ascii) :
  JsString.occurs sep a = false ->
  JsString.split (a +:+ String sep b) sep = a :: JsString.split b sep.
Proof.
  induction a as [|c a IH]; simpl; intros H.
  - rewrite Ascii.eqb_refl. reflexivity.
  - apply orb_false_iff in H as [Hc Ha]. rewrite Hc, (IH Ha). reflexivity.
Qed.

(** Every string is a piece without the separator, followed by nothing
    or by the separator and a remainder. *)
Lemma first_piece (s : string) (sep : ascii) :
  exists piece, JsString.occurs sep piece = false /\
    (s = piece \/ exists tail, s = piece +:+ String sep tail).
Proof.
  induction s as [|c s (piece & Hp & IH)].
  - exists EmptyString. split; [reflexivity | left; reflexivity].
  - destruct (Ascii.eqb c sep) eqn:Hc.
    + apply Ascii.eqb_eq in Hc as ->.
      exists EmptyString. split; [reflexivity|]. right. exists s. reflexivity.
    + exists (String c piece). split; [simpl; rewrite Hc; exact Hp|].
      destruct IH as [->|[tail ->]]; [left; reflexivity|].
      right. exists tail. reflexivity.
Qed.

Lemma occurs_append (c : ascii) (a b : string) :
  JsString.occurs c (a +:+ b) = JsString.occurs c a || JsString.occurs c b.
Proof.
  induction a as [|d a IH]; simpl; [reflexivity|].
  rewrite IH, orb_assoc. reflexivity.
Qed.

(** The token of a header [Bearer rest] is the first piece of [rest]. *)
Lemma bearer_token_first_piece (rest : string) :
  bearer_token ("Bearer " +:+ rest) = head (JsString.split rest " ").
Proof.
  unfold bearer_token.
  change ("Bearer " +:+ rest) with ("Bearer" +:+ String " " rest).
  rewrite split_at_first_sep by reflexivity.
  destruct (JsString.split rest " "); reflexivity.
Qed.

Lemma bearer_token_no_space (rest : string) :
  JsString.occurs " " rest = false ->
  bearer_token ("Bearer " +:+ rest) = Some rest.
Proof.
  intros H. rewrite bearer_token_first_piece, (split_without_sep _ _ H).
  reflexivity.
Qed.

Lemma bearer_token_up_to_space (tok tail : string) :
  JsString.occurs " " tok = false ->
  bearer_token ("Bearer " +:+ tok +:+ String " " tail) = Some tok.
Proof.
  intros H. rewrite bearer_token_first_piece, (split_at_first_sep _ _ _ H).
  reflexivity.
Qed.


(** ** The ways through the middleware *)

Ltac step_protect :=
  unfold protect, try_catch, reject, get_authorization, getenv,
    call_verify, call_next, set_user, res_status, res_json,
    mbind, M_bind.

Ltac reduce := cbn -[JsString.startsWith JsString.falsy bearer_token].

Section Paths.

Variable jwt_verify : option string -> option string -> Z -> decoded + JsError.
Variable next : Request -> completion unit * Request.

Lemma bearer_not_falsy (a : string) :
  JsString.startsWith a "Bearer " = true -> JsString.falsy (Some a) = false.
Proof. destruct a; [discriminate | reflexivity]. Qed.

(** No header, or a header without the prefix. *)
Lemma protect_no_token (s : State) :
  (authorization (req s) = None \/
   exists a, authorization (req s) = Some a /\
             JsString.startsWith a "Bearer " = false) ->
  protect jwt_verify next s =
    (Normal tt, emit (EJson no_token_body) (emit (EStatus 401) s)).
Proof.
  intros [H | (a & H & Hp)]; step_protect; reduce; rewrite H; reduce.
  - reflexivity.
  - rewrite Hp, orb_true_r. reflexivity.
Qed.

(** A header with the prefix whose token the library refuses. *)
Lemma protect_refused (s : State) (a : string) (e : JsError) :
  authorization (req s) = Some a ->
  JsString.startsWith a "Bearer " = true ->
  jwt_verify (bearer_token a) (env s !! "JWT_SECRET") (now s) = inr e ->
  protect jwt_verify next s =
    (Normal tt,
     emit (EJson invalid_token_body)
       (emit (EStatus 401)
          (emit (EVerify (bearer_token a) (env s !! "JWT_SECRET")) s))).
Proof.
  intros H Hp Hv. step_protect. reduce. rewrite H; reduce.
  rewrite (bearer_not_falsy _ Hp), Hp; reduce. rewrite Hv. reflexivity.
Qed.

(** A header with the prefix whose token the library accepts. *)
Lemma protect_accepted (s : State) (a : string) (d : decoded) :
  authorization (req s) = Some a ->
  JsString.startsWith a "Bearer " = true ->
  jwt_verify (bearer_token a) (env s !! "JWT_SECRET") (now s) = inl d ->
  let s1 := emit (EVerify (bearer_token a) (env s !! "JWT_SECRET")) s in
  let s2 := emit (ENext (request_for_next s d)) (put_req (request_for_next s d) s1) in
  protect jwt_verify next s =
    match next (request_for_next s d) with
    | (Normal _, r) => (Normal tt, put_req r s2)
    | (Throw _, r) =>
        (Normal tt,
         emit (EJson invalid_token_body) (emit (EStatus 401) (put_req r s2)))
    end.
Proof.
  intros H Hp Hv. step_protect. reduce. rewrite H; reduce.
  rewrite (bearer_not_falsy _ Hp), Hp; reduce. rewrite Hv; reduce.
  unfold request_for_next.
  destruct (next _) as [[[]|e] r]; reflexivity.
Qed.

End Paths.

(** ** The stand-in library behaves as the real one is assumed to *)

Lemma demo_is_code_hi (c : ascii) : Demo.is_code (Demo.enc_hi c) = true.
Proof. destruct c. reflexivity. Qed.

Lemma demo_is_code_lo (c : ascii) : Demo.is_code (Demo.enc_lo c) = true.
Proof. destruct c. reflexivity. Qed.

Lemma demo_dec_enc (c : ascii) : Demo.dec (Demo.enc_hi c) (Demo.enc_lo c) = c.
Proof. destruct c. reflexivity. Qed.

Lemma demo_decode_encode (s : string) : Demo.decode (Demo.encode s) = Some s.
Proof.
  induction s as [|c s IH]; simpl.
  - reflexivity.
  - rewrite demo_is_code_hi, demo_is_code_lo, IH, demo_dec_enc. reflexivity.
Qed.

Lemma demo_code_differs (c d : ascii) :
  Demo.is_code c = false -> Demo.is_code d = true -> Ascii.eqb d c = false.
Proof.
  intros Hc Hd. destruct (Ascii.eqb_spec d c) as [->|]; congruence.
Qed.

(** The characters outside ['@'..'O'], among them the space and the
    dot, do not occur in an encoding. *)
Lemma demo_encode_alphabet (c : ascii) (s : string) :
  Demo.is_code c = false -> JsString.occurs c (Demo.encode s) = false.
Proof.
  intros Hc. induction s as [|d s IH]; simpl.
  - reflexivity.
  - rewrite (demo_code_differs _ _ Hc (demo_is_code_hi d)),
      (demo_code_differs _ _ Hc (demo_is_code_lo d)), IH.
    reflexivity.
Qed.

Lemma demo_verify_nonempty (tok : string) (secret : option string) (time : Z) :
  tok <> EmptyString ->
  Demo.verify (Some tok) secret time =
    if JsString.occurs " " tok then inr (Demo.jwt_error "jwt malformed") else
    match JsString.split tok "." with
    | [body; sig] =>
        match Demo.decode body with
        | None => inr (Demo.jwt_error "invalid token")
        | Some i =>
            match secret with
            | None | Some EmptyString =>
                inr (Demo.jwt_error "secret or public key must be provided")
            | Some key =>
                if String.eqb sig (Demo.encode key)
                then inl (DObj {[ "id" := JStr i ]})
                else inr (Demo.jwt_error "invalid signature")
            end
        end
    | _ => inr (Demo.jwt_error "jwt malformed")
    end.
Proof. destruct tok; [congruence | reflexivity]. Qed.

Lemma demo_no_space : verified_tokens_have_no_space Demo.verify.
Proof.
  intros tok secret time d H.
  destruct tok as [|c tok]; [discriminate|].
  rewrite demo_verify_nonempty in H by discriminate.
  destruct (JsString.occurs " " (String c tok)); [discriminate | reflexivity].
Qed.

Lemma demo_empty_token : empty_token_is_refused Demo.verify.
Proof. intros secret time. eexists. reflexivity. Qed.

Lemma demo_secret_required : secret_is_required Demo.verify.
Proof.
  intros [[|c tok]|] time; try (eexists; reflexivity).
  rewrite demo_verify_nonempty by discriminate.
  destruct (JsString.occurs " " (String c tok)); [eexists; reflexivity|].
  destruct (JsString.split (String c tok) ".") as [|body [|sig [|more pieces]]];
    try (eexists; reflexivity).
  destruct (Demo.decode body); eexists; reflexivity.
Qed.

Lemma demo_sign_verify : signed_id_verifies Demo.verify Demo.sign.
Proof.
  intros id secret time Hsecret.
  exists (DObj {[ "id" := JStr id ]}). split; [|reflexivity].
  unfold Demo.sign, Demo.id_text. rewrite lookup_singleton_eq.
  rewrite demo_verify_nonempty by (destruct id; discriminate).
  change ("." +:+ Demo.encode secret) with (String "." (Demo.encode secret)).
  assert (JsString.occurs " "
            (Demo.encode id +:+ String "." (Demo.encode secret)) = false) as ->.
  { rewrite occurs_append. simpl.
    rewrite !demo_encode_alphabet by reflexivity. reflexivity. }
  rewrite split_at_first_sep by (apply demo_encode_alphabet; reflexivity).
  rewrite split_without_sep by (apply demo_encode_alphabet; reflexivity).
  rewrite demo_decode_encode, String.eqb_refl.
  destruct secret; [congruence | reflexivity].
Qed.

(** ** Outcome, request and calls on each way *)

Section Ways.

Variable jwt_verify : option string -> option string -> Z -> decoded + JsError.
Variable next : Request -> completion unit * Request.

Lemma way_no_token (s : State) :
  (authorization (req s) = None \/
   exists a, authorization (req s) = Some a /\
             JsString.startsWith a "Bearer " = false) ->
  outcome jwt_verify next s = Normal tt /\
  req (final jwt_verify next s) = req s /\
  calls jwt_verify next s = [EStatus 401; EJson no_token_body].
Proof.
  intros H. unfold outcome, calls, final.
  rewrite (protect_no_token jwt_verify next s H). cbn.
  repeat split. rewrite <- app_assoc. apply drop_app_length.
Qed.

Lemma way_refused (s : State) (a : string) (e : JsError) :
  authorization (req s) = Some a ->
  JsString.startsWith a "Bearer " = true ->
  jwt_verify (bearer_token a) (env s !! "JWT_SECRET") (now s) = inr e ->
  outcome jwt_verify next s = Normal tt /\
  req (final jwt_verify next s) = req s /\
  calls jwt_verify next s =
    [EVerify (bearer_token a) (env s !! "JWT_SECRET");
     EStatus 401; EJson invalid_token_body].
Proof.
  intros H Hp Hv. unfold outcome, calls, final.
  rewrite (protect_refused jwt_verify next s a e H Hp Hv). cbn.
  repeat split. rewrite <- !app_assoc. apply drop_app_length.
Qed.

Lemma way_returns (s : State) (a : string) (d : decoded) :
  authorization (req s) = Some a ->
  JsString.startsWith a "Bearer " = true ->
  jwt_verify (bearer_token a) (env s !! "JWT_SECRET") (now s) = inl d ->
  (next (request_for_next s d)).1 = Normal tt ->
  outcome jwt_verify next s = Normal tt /\
  req (final jwt_verify next s) = (next (request_for_next s d)).2 /\
  calls jwt_verify next s =
    [EVerify (bearer_token a) (env s !! "JWT_SECRET");
     ENext (request_for_next s d)].
Proof.
  intros H Hp Hv Hn. unfold outcome, calls, final.
  rewrite (protect_accepted jwt_verify next s a d H Hp Hv).
  destruct (next (request_for_next s d)) as [[[]|e] r']; [|discriminate].
  cbn. repeat split. rewrite <- !app_assoc. apply drop_app_length.
Qed.

Lemma way_throws (s : State) (a : string) (d : decoded) (e : JsError) :
  authorization (req s) = Some a ->
  JsString.startsWith a "Bearer " = true ->
  jwt_verify (bearer_token a) (env s !! "JWT_SECRET") (now s) = inl d ->
  (next (request_for_next s d)).1 = Throw e ->
  outcome jwt_verify next s = Normal tt /\
  req (final jwt_verify next s) = (next (request_for_next s d)).2 /\
  calls jwt_verify next s =
    [EVerify (bearer_token a) (env s !! "JWT_SECRET");
     ENext (request_for_next s d);
     EStatus 401; EJson invalid_token_body].
Proof.
  intros H Hp Hv Hn. unfold outcome, calls, final.
  rewrite (protect_accepted jwt_verify next s a d H Hp Hv).
  destruct (next (request_for_next s d)) as [[[]|e'] r']; [discriminate|].
  cbn. repeat split. rewrite <- !app_assoc. apply drop_app_length.
Qed.

Lemma ways_exhaustive (s : State) : way jwt_verify next s.
Proof.
  destruct (authorization (req s)) as [a|] eqn:H; [|apply NoToken; auto].
  destruct (JsString.startsWith a "Bearer ") eqn:Hp;
    [|apply NoToken; right; eauto].
  destruct (jwt_verify (bearer_token a) (env s !! "JWT_SECRET") (now s))
    as [d|e] eqn:Hv; [|eapply Refused; eauto].
  destruct (next (request_for_next s d)).1 as [[]|e] eqn:Hn.
  - eapply Returned; eauto.
  - eapply Thrown; eauto.
Qed.

End Ways.

(** ** The token of a header with the prefix *)

(** After the prefix check the token is defined: it is the text that
    follows the first space of the header, up to the next space if
    there is one. *)
Lemma bearer_token_defined (a : string) :
  JsString.startsWith a "Bearer " = true ->
  exists tok,
    bearer_token a = Some tok /\
    JsString.occurs " " tok = false /\
    (spec_token a = tok \/ exists tail, spec_token a = tok +:+ String " " tail).
Proof.
  intros Hp. destruct (startsWith_inv _ _ Hp) as [rest ->].
  change (spec_token ("Bearer " +:+ rest)) with rest.
  destruct (first_piece rest " ") as (tok & Htok & [->|[tail ->]]).
  - exists tok. rewrite (bearer_token_no_space _ Htok). auto.
  - exists tok. rewrite (bearer_token_up_to_space _ _ Htok). eauto.
Qed.

Ltac no_such_call H :=
  repeat (apply elem_of_cons in H as [H|H]; [discriminate H|]);
  apply elem_of_nil in H; exact H.

(** A header made of the prefix and a token without a space, which the
    library verifies: the middleware calls [next] with the identity of
    the claim attached. *)
Lemma spaceless_token_forwarded
    (jwt_verify : option string -> option string -> Z -> decoded + JsError)
    (next : Request -> completion unit * Request)
    (s : State) (tok : string) (d : decoded) :
  JsString.occurs " " tok = false ->
  authorization (req s) = Some ("Bearer " +:+ tok) ->
  jwt_verify (Some tok) (env s !! "JWT_SECRET") (now s) = inl d ->
  exists r rest,
    calls jwt_verify next s =
      EVerify (Some tok) (env s !! "JWT_SECRET") :: ENext r :: rest /\
    user r = decoded_id d /\
    authorization r = authorization (req s) /\
    forwarded (calls jwt_verify next s) /\
    ((next r).1 = Normal tt ->
     rest = [] /\ outcome jwt_verify next s = Normal tt /\
     req (final jwt_verify next s) = (next r).2).
Proof.
  intros Hspace Ha Hv.
  pose proof (bearer_token_no_space tok Hspace) as Htok.
  pose proof (startsWith_append "Bearer " tok) as Hp.
  rewrite <- Htok in Hv.
  exists (request_for_next s d).
  assert (forall rest,
    ENext (request_for_next s d) ∈
      EVerify (bearer_token ("Bearer " +:+ tok)) (env s !! "JWT_SECRET")
        :: ENext (request_for_next s d) :: rest) as Hin.
  { intros rest. apply elem_of_cons. right. apply elem_of_cons. left.
    reflexivity. }
  destruct (next (request_for_next s d)).1 as [[]|e] eqn:Hn.
  - destruct (way_returns jwt_verify next s _ d Ha Hp Hv Hn)
      as (Ho & Hr & Hc).
    exists []. rewrite Hc. rewrite <- Htok at 1.
    repeat split; auto. exists (request_for_next s d). apply Hin.
  - destruct (way_throws jwt_verify next s _ d e Ha Hp Hv Hn)
      as (Ho & Hr & Hc).
    exists [EStatus 401; EJson invalid_token_body].
    rewrite Hc. rewrite <- Htok at 1.
    repeat split; auto; try discriminate.
    exists (request_for_next s d). apply Hin.
Qed.

(** * The claims *)

Section Claims.

Variable jwt_verify : option string -> option string -> Z -> decoded + JsError.
Variable next : Request -> completion unit * Request.

(** C1.  A request whose Authorization header is ["Bearer "] followed by
    a token that the library verifies under the secret of the
    environment is admitted: the middleware calls [jwt.verify] on that
    token and then [next], and at the call of [next] the request carries
    in [req.user] the field [id] of the decoded claim: for a claim that
    is an object [o] with [o.id = v], [req.user] is [v].  When [next]
    returns, nothing else is called and the middleware returns.  The
    library is assumed to accept no token that holds a space. *)
Theorem C1_verified_token_forwarded (s : State) (tok : string) (d : decoded) :
  verified_tokens_have_no_space jwt_verify ->
  authorization (req s) = Some ("Bearer " +:+ tok) ->
  jwt_verify (Some tok) (env s !! "JWT_SECRET") (now s) = inl d ->
  exists r rest,
    calls jwt_verify next s =
      EVerify (Some tok) (env s !! "JWT_SECRET") :: ENext r :: rest /\
    user r = decoded_id d /\
    (forall o v, d = DObj o -> o !! "id" = Some v -> user r = v) /\
    authorization r = authorization (req s) /\
    forwarded (calls jwt_verify next s) /\
    ((next r).1 = Normal tt ->
     rest = [] /\ outcome jwt_verify next s = Normal tt /\
     req (final jwt_verify next s) = (next r).2).
Proof.
  intros Hlib Ha Hv.
  destruct (spaceless_token_forwarded jwt_verify next s tok d
              (Hlib _ _ _ _ Hv) Ha Hv)
    as (r & rest & Hc & Hu & Hh & Hf & Hret).
  exists r, rest. repeat split; auto; try (apply Hret; assumption).
  intros o v -> Hid. rewrite Hu. simpl. rewrite Hid. reflexivity.
Qed.

(** C2.  [next] is called only for a request whose Authorization header
    is present and starts with ["Bearer "], and whose extracted token the
    library verified under the secret that the environment holds when the
    request is handled.  A request with a missing, malformed or
    unverified credential is never forwarded. *)
Theorem C2_forwarded_only_if_verified (s : State) :
  forwarded (calls jwt_verify next s) ->
  exists a tok d,
    authorization (req s) = Some a /\
    JsString.startsWith a "Bearer " = true /\
    bearer_token a = Some tok /\
    jwt_verify (Some tok) (env s !! "JWT_SECRET") (now s) = inl d.
Proof.
  intros [r Hr].
  destruct (ways_exhaustive jwt_verify next s) as [H|a e H Hp Hv|a d H Hp Hv Hn|a d e H Hp Hv Hn].
  - destruct (way_no_token jwt_verify next s H) as (_ & _ & Hc).
    rewrite Hc in Hr. exfalso. no_such_call Hr.
  - destruct (way_refused jwt_verify next s a e H Hp Hv) as (_ & _ & Hc).
    rewrite Hc in Hr. exfalso. no_such_call Hr.
  - destruct (bearer_token_defined a Hp) as (tok & Htok & _).
    exists a, tok, d. rewrite <- Htok. auto.
  - destruct (bearer_token_defined a Hp) as (tok & Htok & _).
    exists a, tok, d. rewrite <- Htok. auto.
Qed.

(** C3.  When the Authorization header is absent, or present without
    the prefix ["Bearer "], the middleware answers with status 401 and
    the body [{ message: "Unauthorized, no token" }]; these are its only
    calls: neither [jwt.verify] nor [next] is called, and the request is
    left as it was. *)
Theorem C3_no_token_rejected (s : State) :
  (authorization (req s) = None \/
   exists a, authorization (req s) = Some a /\
             JsString.startsWith a "Bearer " = false) ->
  outcome jwt_verify next s = Normal tt /\
  calls jwt_verify next s =
    [EStatus 401; EJson {[ "message" := JStr "Unauthorized, no token" ]}] /\
  ~ verified (calls jwt_verify next s) /\
  ~ forwarded (calls jwt_verify next s) /\
  req (final jwt_verify next s) = req s.
Proof.
  intros H. destruct (way_no_token jwt_verify next s H) as (Ho & Hr & Hc).
  rewrite Hc. repeat split; auto.
  - intros (t & k & Hin). no_such_call Hin.
  - intros (r & Hin). no_such_call Hin.
Qed.

(** C4.  When the header starts with ["Bearer "] and the library throws
    on the token, whatever it throws, the middleware answers with status
    401 and the body [{ message: "Invalid or expired token" }]: after the
    call of [jwt.verify] these are its only calls, the same for every
    exception, [next] is not called and the middleware returns
    normally. *)
Theorem C4_invalid_token_rejected (s : State) (a : string) (e : JsError) :
  authorization (req s) = Some a ->
  JsString.startsWith a "Bearer " = true ->
  jwt_verify (bearer_token a) (env s !! "JWT_SECRET") (now s) = inr e ->
  outcome jwt_verify next s = Normal tt /\
  calls jwt_verify next s =
    [EVerify (bearer_token a) (env s !! "JWT_SECRET");
     EStatus 401;
     EJson {[ "message" := JStr "Invalid or expired token" ]}] /\
  ~ forwarded (calls jwt_verify next s).
Proof.
  intros H Hp Hv.
  destruct (way_refused jwt_verify next s a e H Hp Hv) as (Ho & Hr & Hc).
  rewrite Hc. repeat split; auto.
  intros (r & Hin). no_such_call Hin.
Qed.

(** C5, as the code has it.  For a header that starts with ["Bearer "],
    the token handed to [jwt.verify] is the text after the first space
    of the header up to, and without, the next space; it is the whole
    text after the first space exactly when that text holds no further
    space.  No other token is handed to the library. *)
Theorem C5_token_up_to_next_space (s : State) (a : string) :
  authorization (req s) = Some a ->
  JsString.startsWith a "Bearer " = true ->
  exists tok,
    head (calls jwt_verify next s) =
      Some (EVerify (Some tok) (env s !! "JWT_SECRET")) /\
    (forall t k, EVerify t k ∈ calls jwt_verify next s -> t = Some tok) /\
    JsString.occurs " " tok = false /\
    (spec_token a = tok \/ exists tail, spec_token a = tok +:+ String " " tail) /\
    (JsString.occurs " " (spec_token a) = false -> tok = spec_token a).
Proof.
  intros H Hp.
  destruct (bearer_token_defined a Hp) as (tok & Htok & Hspace & Hshape).
  exists tok.
  assert (head (calls jwt_verify next s) =
            Some (EVerify (Some tok) (env s !! "JWT_SECRET")) /\
          (forall t k, EVerify t k ∈ calls jwt_verify next s -> t = Some tok))
    as [Hhead Honly].
  { destruct (ways_exhaustive jwt_verify next s)
      as [H'|a' e H' Hp' Hv|a' d H' Hp' Hv Hn|a' d e H' Hp' Hv Hn].
    - destruct H' as [H'|(a' & H' & Hp')]; congruence.
    - destruct (way_refused jwt_verify next s a' e H' Hp' Hv) as (_ & _ & Hc).
      assert (a' = a) as -> by congruence.
      rewrite Hc, Htok. split; [reflexivity|].
      intros t k Hin. apply elem_of_cons in Hin as [Hin|Hin]; [congruence|].
      exfalso. no_such_call Hin.
    - destruct (way_returns jwt_verify next s a' d H' Hp' Hv Hn)
        as (_ & _ & Hc).
      assert (a' = a) as -> by congruence.
      rewrite Hc, Htok. split; [reflexivity|].
      intros t k Hin. apply elem_of_cons in Hin as [Hin|Hin]; [congruence|].
      exfalso. no_such_call Hin.
    - destruct (way_throws jwt_verify next s a' d e H' Hp' Hv Hn)
        as (_ & _ & Hc).
      assert (a' = a) as -> by congruence.
      rewrite Hc, Htok. split; [reflexivity|].
      intros t k Hin. apply elem_of_cons in Hin as [Hin|Hin]; [congruence|].
      exfalso. no_such_call Hin. }
  repeat split; auto.
  intros Hnone. destruct Hshape as [->|[tail Htail]]; [reflexivity|].
  rewrite Htail, occurs_append in Hnone. simpl in Hnone.
  rewrite orb_true_r in Hnone. discriminate.
Qed.


(** C7.  A header that is exactly ["Bearer "] passes the prefix check;
    the empty token is handed to [jwt.verify], which refuses it, and the
    middleware answers with status 401 and the body
    [{ message: "Invalid or expired token" }], not with the body
    [{ message: "Unauthorized, no token" }]. *)
Theorem C7_empty_token_is_invalid (s : State) :
  empty_token_is_refused jwt_verify ->
  authorization (req s) = Some "Bearer " ->
  outcome jwt_verify next s = Normal tt /\
  calls jwt_verify next s =
    [EVerify (Some EmptyString) (env s !! "JWT_SECRET");
     EStatus 401;
     EJson {[ "message" := JStr "Invalid or expired token" ]}] /\
  EJson {[ "message" := JStr "Unauthorized, no token" ]}
    ∉ calls jwt_verify next s.
Proof.
  intros Hlib H.
  destruct (Hlib (env s !! "JWT_SECRET") (now s)) as [e Hv].
  destruct (way_refused jwt_verify next s "Bearer " e H eq_refl Hv)
    as (Ho & _ & Hc).
  rewrite Hc. repeat split; auto.
  intros Hin.
  apply elem_of_cons in Hin as [Hin|Hin]; [discriminate|].
  apply elem_of_cons in Hin as [Hin|Hin]; [discriminate|].
  apply elem_of_cons in Hin as [Hin|Hin]; [|apply elem_of_nil in Hin; exact Hin].
  apply (f_equal (fun ev => match ev with
                            | EJson body => body !! "message"
                            | _ => None
                            end)) in Hin.
  unfold invalid_token_body in Hin.
  rewrite !lookup_singleton_eq in Hin. discriminate.
Qed.

(** C9, as the code has it.  [next] is called inside the [try] block:
    when the token of a request verifies and the call [next()] itself
    throws into the middleware, the middleware catches the exception and
    answers with status 401 and the body
    [{ message: "Invalid or expired token" }], after having called
    [next]; it returns normally.  A handler mounted after the
    middleware by the Express router does not bring this about: when it
    throws, the router catches the exception, [next()] returns, and the
    middleware sends nothing. *)
Theorem C9_throw_into_middleware_answered_401
    (handler : Request -> completion unit * Request)
    (s : State) (a : string) (d : decoded) :
  authorization (req s) = Some a ->
  JsString.startsWith a "Bearer " = true ->
  jwt_verify (bearer_token a) (env s !! "JWT_SECRET") (now s) = inl d ->
  (forall e,
     (next (request_for_next s d)).1 = Throw e ->
     outcome jwt_verify next s = Normal tt /\
     calls jwt_verify next s =
       [EVerify (bearer_token a) (env s !! "JWT_SECRET");
        ENext (request_for_next s d);
        EStatus 401;
        EJson {[ "message" := JStr "Invalid or expired token" ]}]) /\
  outcome jwt_verify (router_next handler) s = Normal tt /\
  calls jwt_verify (router_next handler) s =
    [EVerify (bearer_token a) (env s !! "JWT_SECRET");
     ENext (request_for_next s d)].
Proof.
  intros H Hp Hv. split.
  - intros e Hn.
    destruct (way_throws jwt_verify next s a d e H Hp Hv Hn) as (Ho & _ & Hc).
    split; assumption.
  - destruct (way_returns jwt_verify (router_next handler) s a d H Hp Hv
                eq_refl) as (Ho & _ & Hc).
    split; assumption.
Qed.

(** C10.  The secret handed to [jwt.verify] is the value that
    [process.env.JWT_SECRET] has in the state in which the request is
    handled.  When the variable is unset there, and given that the
    library throws for every token without a secret, every request whose
    header starts with ["Bearer "] is answered with status 401 and the
    body [{ message: "Invalid or expired token" }], no request at all is
    forwarded, and the middleware returns normally. *)
Theorem C10_unset_secret_rejects_all (s : State) :
  secret_is_required jwt_verify ->
  (forall a,
     authorization (req s) = Some a ->
     JsString.startsWith a "Bearer " = true ->
     head (calls jwt_verify next s) =
       Some (EVerify (bearer_token a) (env s !! "JWT_SECRET"))) /\
  (env s !! "JWT_SECRET" = None ->
   outcome jwt_verify next s = Normal tt /\
   ~ forwarded (calls jwt_verify next s) /\
   forall a,
     authorization (req s) = Some a ->
     JsString.startsWith a "Bearer " = true ->
     calls jwt_verify next s =
       [EVerify (bearer_token a) None;
        EStatus 401;
        EJson {[ "message" := JStr "Invalid or expired token" ]}]).
Proof.
  intros Hlib. split.
  - intros a H Hp.
    destruct (ways_exhaustive jwt_verify next s)
      as [H'|a' e H' Hp' Hv|a' d H' Hp' Hv Hn|a' d e H' Hp' Hv Hn].
    + destruct H' as [H'|(a' & H' & Hp')]; congruence.
    + destruct (way_refused jwt_verify next s a' e H' Hp' Hv) as (_ & _ & Hc).
      assert (a' = a) as -> by congruence. rewrite Hc. reflexivity.
    + destruct (way_returns jwt_verify next s a' d H' Hp' Hv Hn)
        as (_ & _ & Hc).
      assert (a' = a) as -> by congruence. rewrite Hc. reflexivity.
    + destruct (way_throws jwt_verify next s a' d e H' Hp' Hv Hn)
        as (_ & _ & Hc).
      assert (a' = a) as -> by congruence. rewrite Hc. reflexivity.
  - intros Henv.
    destruct (authorization (req s)) as [a|] eqn:H.
    + destruct (JsString.startsWith a "Bearer ") eqn:Hp.
      * destruct (Hlib (bearer_token a) (now s)) as [e Hv].
        rewrite <- Henv in Hv.
        destruct (way_refused jwt_verify next s a e H Hp Hv) as (Ho & _ & Hc).
        rewrite Hc, Henv. repeat split; auto.
        -- intros (r & Hin). no_such_call Hin.
        -- intros a' Ha' _. injection Ha' as <-. reflexivity.
      * destruct (way_no_token jwt_verify next s) as (Ho & _ & Hc);
          [right; eauto|].
        rewrite Hc. repeat split; auto.
        -- intros (r & Hin). no_such_call Hin.
        -- intros a' Ha' Hp'. congruence.
    + destruct (way_no_token jwt_verify next s) as (Ho & _ & Hc); [auto|].
      rewrite Hc. repeat split; auto.
      * intros (r & Hin). no_such_call Hin.
      * intros a' Ha'. discriminate.
Qed.

End Claims.

(** ** The login flow and the middleware together *)

Section RoundTrip.

Variable jwt_verify : option string -> option string -> Z -> decoded + JsError.
Variable jwt_sign : gmap string jsval -> string -> Z -> string.
Variable next : Request -> completion unit * Request.

(** C8.  A token that the login flow issues for an identity, with the
    secret of the environment, and that is presented at once in the
    header [Bearer <token>], is admitted: [next] is called, and at that
    call [req.user] is the identity the token was issued for.  The
    library is assumed to verify what it has just signed and to accept
    no token that holds a space. *)
Theorem C8_login_round_trip (s : State) (secret id : string) :
  verified_tokens_have_no_space jwt_verify ->
  signed_id_verifies jwt_verify jwt_sign ->
  env s !! "JWT_SECRET" = Some secret ->
  secret <> EmptyString ->
  authorization (req s) =
    Some ("Bearer " +:+ login_token jwt_sign secret (now s) id) ->
  exists r rest,
    calls jwt_verify next s =
      EVerify (Some (login_token jwt_sign secret (now s) id)) (Some secret)
        :: ENext r :: rest /\
    user r = JStr id /\
    forwarded (calls jwt_verify next s) /\
    ((next r).1 = Normal tt ->
     rest = [] /\ outcome jwt_verify next s = Normal tt).
Proof.
  intros Hspace Hsign Henv Hsecret Ha.
  destruct (Hsign id secret (now s) Hsecret) as (d & Hv & Hid).
  fold (login_token jwt_sign secret (now s) id) in Hv.
  pose proof (Hspace _ _ _ _ Hv) as Hno.
  rewrite <- Henv in Hv.
  destruct (spaceless_token_forwarded jwt_verify next s _ d Hno Ha Hv)
    as (r & rest & Hc & Hu & _ & Hf & Hret).
  exists r, rest. rewrite <- Henv, <- Hid, Hu.
  repeat split; auto; apply Hret; assumption.
Qed.

End RoundTrip.

(** * The claims at concrete requests *)

Example token_42_signed :
  Demo.sign {[ "id" := JStr "42" ]} Demo.secret 1700000000 = Demo.token_42.
Proof. reflexivity. Qed.

Lemma C1_witness :
  exists r rest,
    calls Demo.verify Demo.next_returns Demo.good_request =
      EVerify (Some Demo.token_42) (Some "s3cret") :: ENext r :: rest /\
    user r = JStr "42" /\
    authorization r = Some "Bearer CDCB.GCCCFCGBFEGD" /\
    forwarded (calls Demo.verify Demo.next_returns Demo.good_request) /\
    rest = [] /\
    outcome Demo.verify Demo.next_returns Demo.good_request = Normal tt.
Proof.
  destruct (C1_verified_token_forwarded Demo.verify Demo.next_returns
              Demo.good_request Demo.token_42 (DObj {[ "id" := JStr "42" ]})
              demo_no_space eq_refl eq_refl)
    as (r & rest & Hc & _ & Hid & Ha & Hf & Hret).
  exists r, rest.
  destruct (Hret eq_refl) as (Hrest & Ho & _).
  exact (conj Hc
          (conj (Hid {[ "id" := JStr "42" ]} (JStr "42") eq_refl eq_refl)
             (conj Ha (conj Hf (conj Hrest Ho))))).
Defined.

Lemma C2_witness :
  forwarded (calls Demo.verify Demo.next_returns Demo.good_request) /\
  exists a tok d,
    authorization (req Demo.good_request) = Some a /\
    JsString.startsWith a "Bearer " = true /\
    bearer_token a = Some tok /\
    Demo.verify (Some tok) (env Demo.good_request !! "JWT_SECRET")
      (now Demo.good_request) = inl d.
Proof.
  assert (forwarded (calls Demo.verify Demo.next_returns Demo.good_request))
    as Hf.
  { eexists. apply elem_of_cons. right. apply elem_of_cons. left.
    reflexivity. }
  split; [exact Hf|].
  exact (C2_forwarded_only_if_verified Demo.verify Demo.next_returns
           Demo.good_request Hf).
Defined.

Lemma C3_witness :
  outcome Demo.verify Demo.next_returns Demo.basic_request = Normal tt /\
  calls Demo.verify Demo.next_returns Demo.basic_request =
    [EStatus 401; EJson {[ "message" := JStr "Unauthorized, no token" ]}] /\
  ~ verified (calls Demo.verify Demo.next_returns Demo.basic_request) /\
  ~ forwarded (calls Demo.verify Demo.next_returns Demo.basic_request) /\
  req (final Demo.verify Demo.next_returns Demo.basic_request) =
    req Demo.basic_request.
Proof.
  apply (C3_no_token_rejected Demo.verify Demo.next_returns Demo.basic_request).
  right. exists "Basic xyz". split; reflexivity.
Defined.

Lemma C4_witness :
  outcome Demo.verify Demo.next_returns Demo.forged_request = Normal tt /\
  calls Demo.verify Demo.next_returns Demo.forged_request =
    [EVerify (bearer_token "Bearer CDCB.FOGDFHFEGB")
       (env Demo.forged_request !! "JWT_SECRET");
     EStatus 401;
     EJson {[ "message" := JStr "Invalid or expired token" ]}] /\
  ~ forwarded (calls Demo.verify Demo.next_returns Demo.forged_request).
Proof.
  apply (C4_invalid_token_rejected Demo.verify Demo.next_returns
           Demo.forged_request "Bearer CDCB.FOGDFHFEGB"
           (Demo.jwt_error "invalid signature")).
  - reflexivity.
  - reflexivity.
  - reflexivity.
Defined.

(** C5 as the specification words it fails: of the header
    ["Bearer a b"] the text after the first space is ["a b"], and the
    token handed to [jwt.verify] is ["a"]. *)
Lemma C5_counterexample :
  authorization (req Demo.two_spaces_request) = Some "Bearer a b" /\
  JsString.startsWith "Bearer a b" "Bearer " = true /\
  spec_token "Bearer a b" = "a b" /\
  head (calls Demo.verify Demo.next_returns Demo.two_spaces_request) =
    Some (EVerify (Some "a") (Some "s3cret")) /\
  Some "a" <> Some (spec_token "Bearer a b").
Proof.
  repeat split; try reflexivity. discriminate.
Qed.

Lemma C5_witness :
  exists tok,
    head (calls Demo.verify Demo.next_returns Demo.two_spaces_request) =
      Some (EVerify (Some tok) (env Demo.two_spaces_request !! "JWT_SECRET")) /\
    (forall t k,
       EVerify t k ∈ calls Demo.verify Demo.next_returns Demo.two_spaces_request ->
       t = Some tok) /\
    JsString.occurs " " tok = false /\
    (spec_token "Bearer a b" = tok \/
     exists tail, spec_token "Bearer a b" = tok +:+ String " " tail) /\
    (JsString.occurs " " (spec_token "Bearer a b") = false ->
     tok = spec_token "Bearer a b").
Proof.
  apply (C5_token_up_to_next_space Demo.verify Demo.next_returns
           Demo.two_spaces_request "Bearer a b").
  - reflexivity.
  - reflexivity.
Defined.


Lemma C7_witness :
  outcome Demo.verify Demo.next_returns Demo.empty_token_request = Normal tt /\
  calls Demo.verify Demo.next_returns Demo.empty_token_request =
    [EVerify (Some EmptyString) (env Demo.empty_token_request !! "JWT_SECRET");
     EStatus 401;
     EJson {[ "message" := JStr "Invalid or expired token" ]}] /\
  EJson {[ "message" := JStr "Unauthorized, no token" ]}
    ∉ calls Demo.verify Demo.next_returns Demo.empty_token_request.
Proof.
  apply (C7_empty_token_is_invalid Demo.verify Demo.next_returns
           Demo.empty_token_request).
  - exact demo_empty_token.
  - reflexivity.
Defined.

Lemma C8_witness :
  exists r rest,
    calls Demo.verify Demo.next_returns (Demo.login_request "u123") =
      EVerify
        (Some (login_token Demo.sign Demo.secret
                 (now (Demo.login_request "u123")) "u123"))
        (Some Demo.secret)
        :: ENext r :: rest /\
    user r = JStr "u123" /\
    forwarded (calls Demo.verify Demo.next_returns (Demo.login_request "u123")) /\
    ((Demo.next_returns r).1 = Normal tt ->
     rest = [] /\
     outcome Demo.verify Demo.next_returns (Demo.login_request "u123") =
       Normal tt).
Proof.
  apply (C8_login_round_trip Demo.verify Demo.sign Demo.next_returns
           (Demo.login_request "u123") Demo.secret "u123").
  - exact demo_no_space.
  - exact demo_sign_verify.
  - reflexivity.
  - discriminate.
  - reflexivity.
Defined.

(** C9 as the specification words it fails in the route: the token
    verifies and the handler mounted after the middleware throws, yet
    the middleware answers nothing; the router has caught the
    exception. *)
Lemma C9_counterexample :
  Demo.verify (bearer_token "Bearer CDCB.GCCCFCGBFEGD")
    (env Demo.good_request !! "JWT_SECRET") (now Demo.good_request) =
    inl (DObj {[ "id" := JStr "42" ]}) /\
  (Demo.next_throws
     {| authorization := Some "Bearer CDCB.GCCCFCGBFEGD"; user := JStr "42" |}).1 =
    Throw (mkError "TypeError" "handler failed") /\
  calls Demo.verify (router_next Demo.next_throws) Demo.good_request =
    [EVerify (Some "CDCB.GCCCFCGBFEGD") (Some "s3cret");
     ENext {| authorization := Some "Bearer CDCB.GCCCFCGBFEGD";
              user := JStr "42" |}] /\
  ~ answered_401
      (calls Demo.verify (router_next Demo.next_throws) Demo.good_request).
Proof.
  repeat split.
  intros Hin.
  change (calls Demo.verify (router_next Demo.next_throws) Demo.good_request)
    with [EVerify (Some "CDCB.GCCCFCGBFEGD") (Some "s3cret");
          ENext {| authorization := Some "Bearer CDCB.GCCCFCGBFEGD";
                   user := JStr "42" |}] in Hin.
  unfold answered_401 in Hin. no_such_call Hin.
Qed.

Lemma C9_witness :
  (forall e,
     (Demo.next_throws
        (request_for_next Demo.good_request (DObj {[ "id" := JStr "42" ]}))).1 =
       Throw e ->
     outcome Demo.verify Demo.next_throws Demo.good_request = Normal tt /\
     calls Demo.verify Demo.next_throws Demo.good_request =
       [EVerify (bearer_token "Bearer CDCB.GCCCFCGBFEGD")
          (env Demo.good_request !! "JWT_SECRET");
        ENext (request_for_next Demo.good_request
                 (DObj {[ "id" := JStr "42" ]}));
        EStatus 401;
        EJson {[ "message" := JStr "Invalid or expired token" ]}]) /\
  outcome Demo.verify (router_next Demo.next_throws) Demo.good_request =
    Normal tt /\
  calls Demo.verify (router_next Demo.next_throws) Demo.good_request =
    [EVerify (bearer_token "Bearer CDCB.GCCCFCGBFEGD")
       (env Demo.good_request !! "JWT_SECRET");
     ENext (request_for_next Demo.good_request
              (DObj {[ "id" := JStr "42" ]}))].
Proof.
  apply (C9_throw_into_middleware_answered_401
           Demo.verify Demo.next_throws Demo.next_throws Demo.good_request
           "Bearer CDCB.GCCCFCGBFEGD" (DObj {[ "id" := JStr "42" ]})).
  - reflexivity.
  - reflexivity.
  - reflexivity.
Defined.

Lemma C10_witness :
  env Demo.no_secret_request !! "JWT_SECRET" = None /\
  outcome Demo.verify Demo.next_returns Demo.no_secret_request = Normal tt /\
  ~ forwarded (calls Demo.verify Demo.next_returns Demo.no_secret_request) /\
  forall a,
    authorization (req Demo.no_secret_request) = Some a ->
    JsString.startsWith a "Bearer " = true ->
    calls Demo.verify Demo.next_returns Demo.no_secret_request =
      [EVerify (bearer_token a) None;
       EStatus 401;
       EJson {[ "message" := JStr "Invalid or expired token" ]}].
Proof.
  split; [reflexivity|].
  apply (C10_unset_secret_rejects_all Demo.verify Demo.next_returns
           Demo.no_secret_request demo_secret_required).
  reflexivity.
Defined.

(** * Further properties of the middleware *)

Lemma request_for_next_fields (s : State) (d : decoded) :
  request_for_next s d =
    {| authorization := authorization (req s); user := decoded_id d |}.
Proof. reflexivity. Qed.

Section Further.

Variable jwt_verify : option string -> option string -> Z -> decoded + JsError.
Variable next : Request -> completion unit * Request.


(** X2.  Whatever request [next] is called with, its [user] is the
    [id] of a claim that the library decoded from the token of the
    header, under the secret of the environment; a value that [req.user]
    held on arrival is overwritten, and the header is passed on
    unchanged. *)
Theorem forwarded_identity_is_verified_claim (s : State) (r : Request) :
  ENext r ∈ calls jwt_verify next s ->
  exists a tok d,
    authorization (req s) = Some a /\
    JsString.startsWith a "Bearer " = true /\
    bearer_token a = Some tok /\
    jwt_verify (Some tok) (env s !! "JWT_SECRET") (now s) = inl d /\
    r = {| authorization := Some a; user := decoded_id d |}.
Proof.
  intros Hin.
  destruct (ways_exhaustive jwt_verify next s)
    as [H|a e H Hp Hv|a d H Hp Hv Hn|a d e H Hp Hv Hn].
  - destruct (way_no_token jwt_verify next s H) as (_ & _ & Hc).
    rewrite Hc in Hin. exfalso. no_such_call Hin.
  - destruct (way_refused jwt_verify next s a e H Hp Hv) as (_ & _ & Hc).
    rewrite Hc in Hin. exfalso. no_such_call Hin.
  - destruct (way_returns jwt_verify next s a d H Hp Hv Hn) as (_ & _ & Hc).
    destruct (bearer_token_defined a Hp) as (tok & Htok & _).
    exists a, tok, d. rewrite <- Htok. repeat split; auto.
    rewrite Hc in Hin.
    apply elem_of_cons in Hin as [Hin|Hin]; [discriminate|].
    apply elem_of_cons in Hin as [Hin|Hin];
      [|apply elem_of_nil in Hin; destruct Hin].
    injection Hin as ->. rewrite request_for_next_fields, H. reflexivity.
  - destruct (way_throws jwt_verify next s a d e H Hp Hv Hn) as (_ & _ & Hc).
    destruct (bearer_token_defined a Hp) as (tok & Htok & _).
    exists a, tok, d. rewrite <- Htok. repeat split; auto.
    rewrite Hc in Hin.
    apply elem_of_cons in Hin as [Hin|Hin]; [discriminate|].
    apply elem_of_cons in Hin as [Hin|Hin]; [|exfalso; no_such_call Hin].
    injection Hin as ->. rewrite request_for_next_fields, H. reflexivity.
Qed.

(** X3.  The middleware does not look for the identity in the claim: a
    token that verifies and whose payload is a string, or an object
    without the field [id], is forwarded all the same, with [req.user]
    undefined. *)
Theorem claim_without_id_forwarded (s : State) (a : string) (d : decoded) :
  authorization (req s) = Some a ->
  JsString.startsWith a "Bearer " = true ->
  jwt_verify (bearer_token a) (env s !! "JWT_SECRET") (now s) = inl d ->
  (forall o, d = DObj o -> o !! "id" = None) ->
  ENext {| authorization := Some a; user := JUndefined |}
    ∈ calls jwt_verify next s.
Proof.
  intros H Hp Hv Hid.
  assert (decoded_id d = JUndefined) as Hundef.
  { destruct d as [o|p]; [|reflexivity].
    simpl. rewrite (Hid o eq_refl). reflexivity. }
  assert (request_for_next s d =
            {| authorization := Some a; user := JUndefined |}) as Hr
    by (rewrite request_for_next_fields, H, Hundef; reflexivity).
  destruct (next (request_for_next s d)).1 as [[]|e] eqn:Hn.
  - destruct (way_returns jwt_verify next s a d H Hp Hv Hn) as (_ & _ & Hc).
    rewrite Hc, Hr. apply elem_of_cons. right. apply elem_of_cons. left.
    reflexivity.
  - destruct (way_throws jwt_verify next s a d e H Hp Hv Hn) as (_ & _ & Hc).
    rewrite Hc, Hr. apply elem_of_cons. right. apply elem_of_cons. left.
    reflexivity.
Qed.

(** X4.  Two spaces after [Bearer]: whatever follows them, the token
    handed to [jwt.verify] is the empty string, so that (the library
    refusing the empty token) a header [Bearer  <token>] is answered
    with 401 "Invalid or expired token" even for a valid token. *)
Theorem second_space_empties_token (s : State) (rest : string) :
  empty_token_is_refused jwt_verify ->
  authorization (req s) = Some ("Bearer  " +:+ rest) ->
  calls jwt_verify next s =
    [EVerify (Some EmptyString) (env s !! "JWT_SECRET");
     EStatus 401;
     EJson {[ "message" := JStr "Invalid or expired token" ]}].
Proof.
  intros Hlib H.
  assert (bearer_token ("Bearer  " +:+ rest) = Some EmptyString) as Htok
    by exact (bearer_token_up_to_space EmptyString rest eq_refl).
  destruct (Hlib (env s !! "JWT_SECRET") (now s)) as [e Hv].
  rewrite <- Htok in Hv.
  destruct (way_refused jwt_verify next s _ e H eq_refl Hv) as (_ & _ & Hc).
  rewrite Hc, Htok. reflexivity.
Qed.

(** X5.  Text after the token is ignored: a header [Bearer <token>
    <anything>] whose token holds no space and verifies is forwarded
    like [Bearer <token>], with the identity of the claim of the
    token. *)
Theorem text_after_token_ignored
    (s : State) (tok junk : string) (d : decoded) :
  JsString.occurs " " tok = false ->
  authorization (req s) = Some ("Bearer " +:+ tok +:+ String " " junk) ->
  jwt_verify (Some tok) (env s !! "JWT_SECRET") (now s) = inl d ->
  head (calls jwt_verify next s) =
    Some (EVerify (Some tok) (env s !! "JWT_SECRET")) /\
  ENext {| authorization := Some ("Bearer " +:+ tok +:+ String " " junk);
           user := decoded_id d |}
    ∈ calls jwt_verify next s.
Proof.
  intros Hspace H Hv.
  pose proof (bearer_token_up_to_space tok junk Hspace) as Htok.
  rewrite <- Htok in Hv.
  assert (request_for_next s d =
            {| authorization := Some ("Bearer " +:+ tok +:+ String " " junk);
               user := decoded_id d |}) as Hr
    by (rewrite request_for_next_fields, H; reflexivity).
  destruct (next (request_for_next s d)).1 as [[]|e] eqn:Hn.
  - destruct (way_returns jwt_verify next s _ d H eq_refl Hv Hn)
      as (_ & _ & Hc).
    rewrite Hc, Hr, Htok. split; [reflexivity|].
    apply elem_of_cons. right. apply elem_of_cons. left. reflexivity.
  - destruct (way_throws jwt_verify next s _ d e H eq_refl Hv Hn)
      as (_ & _ & Hc).
    rewrite Hc, Hr, Htok. split; [reflexivity|].
    apply elem_of_cons. right. apply elem_of_cons. left. reflexivity.
Qed.

End Further.

Section Shape.

Variable jwt_verify : option string -> option string -> Z -> decoded + JsError.
Variable next : Request -> completion unit * Request.

(** X6.  What the middleware calls, in every case: either it answers
    401 "Unauthorized, no token" and calls nothing else, or it calls
    [jwt.verify] once, on a token that is a string, and then answers 401
    "Invalid or expired token", or calls [next] once, or calls [next]
    once and then answers 401 "Invalid or expired token".  So it never
    sends two responses, never sets a status other than 401, never
    calls [next] before or without [jwt.verify], and never calls
    [jwt.verify] twice. *)
Theorem calls_have_one_of_four_shapes (s : State) :
  calls jwt_verify next s =
    [EStatus 401; EJson {[ "message" := JStr "Unauthorized, no token" ]}] \/
  exists tok r,
    let verify := EVerify (Some tok) (env s !! "JWT_SECRET") in
    let invalid := EJson {[ "message" := JStr "Invalid or expired token" ]} in
    calls jwt_verify next s = [verify; EStatus 401; invalid] \/
    calls jwt_verify next s = [verify; ENext r] \/
    calls jwt_verify next s = [verify; ENext r; EStatus 401; invalid].
Proof.
  destruct (ways_exhaustive jwt_verify next s)
    as [H|a e H Hp Hv|a d H Hp Hv Hn|a d e H Hp Hv Hn].
  - left. apply (way_no_token jwt_verify next s H).
  - right. destruct (bearer_token_defined a Hp) as (tok & Htok & _).
    exists tok, (req s). left. rewrite <- Htok.
    apply (way_refused jwt_verify next s a e H Hp Hv).
  - right. destruct (bearer_token_defined a Hp) as (tok & Htok & _).
    exists tok, (request_for_next s d). right. left. rewrite <- Htok.
    apply (way_returns jwt_verify next s a d H Hp Hv Hn).
  - right. destruct (bearer_token_defined a Hp) as (tok & Htok & _).
    exists tok, (request_for_next s d). right. right. rewrite <- Htok.
    apply (way_throws jwt_verify next s a d e H Hp Hv Hn).
Qed.

(** X7.  Nothing persists from one request to the next: what the
    middleware calls depends only on the Authorization header, on
    [process.env.JWT_SECRET] and on the clock.  Two states that agree
    on these give the same calls, whatever [req.user] held on arrival,
    whatever was logged before and whatever else the environment
    holds. *)
Theorem calls_depend_on_header_secret_clock (s1 s2 : State) :
  authorization (req s1) = authorization (req s2) ->
  env s1 !! "JWT_SECRET" = env s2 !! "JWT_SECRET" ->
  now s1 = now s2 ->
  calls jwt_verify next s1 = calls jwt_verify next s2.
Proof.
  intros Ha Hk Ht.
  assert (forall d, request_for_next s1 d = request_for_next s2 d) as Hr
    by (intros d; rewrite !request_for_next_fields, Ha; reflexivity).
  destruct (ways_exhaustive jwt_verify next s1)
    as [H|a e H Hp Hv|a d H Hp Hv Hn|a d e H Hp Hv Hn].
  - destruct (way_no_token jwt_verify next s1 H) as (_ & _ & ->).
    rewrite Ha in H.
    destruct (way_no_token jwt_verify next s2 H) as (_ & _ & ->).
    reflexivity.
  - destruct (way_refused jwt_verify next s1 a e H Hp Hv) as (_ & _ & ->).
    rewrite Ha in H. rewrite Hk, Ht in Hv.
    destruct (way_refused jwt_verify next s2 a e H Hp Hv) as (_ & _ & ->).
    rewrite Hk. reflexivity.
  - destruct (way_returns jwt_verify next s1 a d H Hp Hv Hn) as (_ & _ & ->).
    rewrite Ha in H. rewrite Hk, Ht in Hv. rewrite Hr in Hn.
    destruct (way_returns jwt_verify next s2 a d H Hp Hv Hn) as (_ & _ & ->).
    rewrite Hk, Hr. reflexivity.
  - destruct (way_throws jwt_verify next s1 a d e H Hp Hv Hn) as (_ & _ & ->).
    rewrite Ha in H. rewrite Hk, Ht in Hv. rewrite Hr in Hn.
    destruct (way_throws jwt_verify next s2 a d e H Hp Hv Hn) as (_ & _ & ->).
    rewrite Hk, Hr. reflexivity.
Qed.

End Shape.

(** * The profile route *)

Section RouteFacts.

Variable jwt_verify : option string -> option string -> Z -> decoded + JsError.

Ltac step_route :=
  unfold route_calls, profile_route, protect_then, try_catch, reject,
    get_authorization, getenv, call_verify, call_rest, set_user,
    profile_handler, res_status, res_json, mbind, M_bind.

(** [protect] with the [next] of the router is [protect_then] with the
    handler as the rest of the route. *)
Lemma protect_as_handler
    (handler : Request -> completion unit * Request) (s : State) :
  protect jwt_verify (router_next handler) s =
  protect_then jwt_verify (as_rest handler) s.
Proof.
  step_protect. step_route. unfold as_rest, router_next. reduce.
  destruct (authorization (req s)) as [a|]; [|reflexivity]. reduce.
  destruct (JsString.falsy (Some a) || negb (JsString.startsWith a "Bearer "));
    [reflexivity|]. reduce.
  destruct (jwt_verify _ _ _) as [d|e]; [|reflexivity]. reduce.
  destruct (handler _) as [[[]|e] r]; reflexivity.
Qed.

Lemma route_no_token (s : State) :
  (authorization (req s) = None \/
   exists a, authorization (req s) = Some a /\
             JsString.startsWith a "Bearer " = false) ->
  route_calls jwt_verify s = [EStatus 401; EJson no_token_body].
Proof.
  intros [H | (a & H & Hp)]; step_route; reduce; rewrite H; reduce.
  - rewrite <- app_assoc. apply drop_app_length.
  - rewrite Hp, orb_true_r. reduce.
    rewrite <- app_assoc. apply drop_app_length.
Qed.

Lemma route_refused (s : State) (a : string) (e : JsError) :
  authorization (req s) = Some a ->
  JsString.startsWith a "Bearer " = true ->
  jwt_verify (bearer_token a) (env s !! "JWT_SECRET") (now s) = inr e ->
  route_calls jwt_verify s =
    [EVerify (bearer_token a) (env s !! "JWT_SECRET");
     EStatus 401; EJson invalid_token_body].
Proof.
  intros H Hp Hv. step_route. reduce. rewrite H; reduce.
  rewrite (bearer_not_falsy _ Hp), Hp; reduce. rewrite Hv; reduce.
  rewrite <- !app_assoc. apply drop_app_length.
Qed.

Lemma route_accepted (s : State) (a : string) (d : decoded) :
  authorization (req s) = Some a ->
  JsString.startsWith a "Bearer " = true ->
  jwt_verify (bearer_token a) (env s !! "JWT_SECRET") (now s) = inl d ->
  (profile_route jwt_verify s).1 = Normal tt /\
  route_calls jwt_verify s =
    [EVerify (bearer_token a) (env s !! "JWT_SECRET");
     ENext (request_for_next s d);
     EJson (profile_body (request_for_next s d))].
Proof.
  intros H Hp Hv. step_route. reduce. rewrite H; reduce.
  rewrite (bearer_not_falsy _ Hp), Hp; reduce. rewrite Hv; reduce.
  split; [reflexivity|].
  rewrite <- !app_assoc. apply drop_app_length.
Qed.

End RouteFacts.

Section RouteClaims.

Variable jwt_verify : option string -> option string -> Z -> decoded + JsError.

(** X8.  [GET /profile] with a header that starts with ["Bearer "] and
    a token that verifies: the route calls [jwt.verify], passes to the
    handler, and the handler answers with the body
    [{ message: "This is a protected route", user: <id of the claim> }];
    no status is set and nothing else is sent. *)
Theorem profile_answers_with_identity (s : State) (a : string) (d : decoded) :
  authorization (req s) = Some a ->
  JsString.startsWith a "Bearer " = true ->
  jwt_verify (bearer_token a) (env s !! "JWT_SECRET") (now s) = inl d ->
  (profile_route jwt_verify s).1 = Normal tt /\
  route_calls jwt_verify s =
    [EVerify (bearer_token a) (env s !! "JWT_SECRET");
     ENext {| authorization := Some a; user := decoded_id d |};
     EJson (<[ "user" := decoded_id d ]>
              {[ "message" := JStr "This is a protected route" ]})].
Proof.
  intros H Hp Hv.
  destruct (route_accepted jwt_verify s a d H Hp Hv) as (Ho & Hc).
  split; [exact Ho|].
  rewrite Hc, request_for_next_fields, H. reflexivity.
Qed.

(** X9.  [GET /profile] sends the body of the protected route only to a
    request whose token verified, and the [user] in that body is the
    [id] of the decoded claim: a request without a verified token never
    receives it. *)
Theorem protected_body_only_after_verification
    (s : State) (body : gmap string jsval) :
  EJson body ∈ route_calls jwt_verify s ->
  body !! "message" = Some (JStr "This is a protected route") ->
  exists a tok d,
    authorization (req s) = Some a /\
    JsString.startsWith a "Bearer " = true /\
    bearer_token a = Some tok /\
    jwt_verify (Some tok) (env s !! "JWT_SECRET") (now s) = inl d /\
    body !! "user" = Some (decoded_id d).
Proof.
  intros Hin Hmsg.
  assert (forall b : gmap string jsval,
            EJson body = EJson b -> body = b) as Hinj by congruence.
  destruct (authorization (req s)) as [a|] eqn:H.
  - destruct (JsString.startsWith a "Bearer ") eqn:Hp.
    + destruct (jwt_verify (bearer_token a) (env s !! "JWT_SECRET") (now s))
        as [d|e] eqn:Hv.
      * destruct (route_accepted jwt_verify s a d H Hp Hv) as (_ & Hc).
        destruct (bearer_token_defined a Hp) as (tok & Htok & _).
        exists a, tok, d. rewrite <- Htok. repeat split; auto.
        rewrite Hc in Hin.
        apply elem_of_cons in Hin as [Hin|Hin]; [discriminate|].
        apply elem_of_cons in Hin as [Hin|Hin]; [discriminate|].
        apply elem_of_cons in Hin as [Hin|Hin];
          [|apply elem_of_nil in Hin; destruct Hin].
        rewrite (Hinj _ Hin). unfold profile_body.
        rewrite lookup_insert_eq. reflexivity.
      * rewrite (route_refused jwt_verify s a e H Hp Hv) in Hin.
        apply elem_of_cons in Hin as [Hin|Hin]; [discriminate|].
        apply elem_of_cons in Hin as [Hin|Hin]; [discriminate|].
        apply elem_of_cons in Hin as [Hin|Hin];
          [|apply elem_of_nil in Hin; destruct Hin].
        rewrite (Hinj _ Hin) in Hmsg. unfold invalid_token_body in Hmsg.
        rewrite lookup_singleton_eq in Hmsg. discriminate.
    + rewrite (route_no_token jwt_verify s) in Hin by (right; eauto).
      apply elem_of_cons in Hin as [Hin|Hin]; [discriminate|].
      apply elem_of_cons in Hin as [Hin|Hin];
        [|apply elem_of_nil in Hin; destruct Hin].
      rewrite (Hinj _ Hin) in Hmsg. unfold no_token_body in Hmsg.
      rewrite lookup_singleton_eq in Hmsg. discriminate.
  - rewrite (route_no_token jwt_verify s) in Hin by (left; exact H).
    apply elem_of_cons in Hin as [Hin|Hin]; [discriminate|].
    apply elem_of_cons in Hin as [Hin|Hin];
      [|apply elem_of_nil in Hin; destruct Hin].
    rewrite (Hinj _ Hin) in Hmsg. unfold no_token_body in Hmsg.
    rewrite lookup_singleton_eq in Hmsg. discriminate.
Qed.

(** X10.  [GET /profile] sends exactly one response body for every
    request: the 401 of the middleware or the answer of the handler,
    never both and never none. *)
Theorem profile_route_sends_one_response (s : State) :
  length (responses (route_calls jwt_verify s)) = 1.
Proof.
  destruct (authorization (req s)) as [a|] eqn:H.
  - destruct (JsString.startsWith a "Bearer ") eqn:Hp.
    + destruct (jwt_verify (bearer_token a) (env s !! "JWT_SECRET") (now s))
        as [d|e] eqn:Hv.
      * destruct (route_accepted jwt_verify s a d H Hp Hv) as (_ & Hc).
        rewrite Hc. reflexivity.
      * rewrite (route_refused jwt_verify s a e H Hp Hv). reflexivity.
    + rewrite (route_no_token jwt_verify s) by (right; eauto). reflexivity.
  - rewrite (route_no_token jwt_verify s) by (left; exact H). reflexivity.
Qed.

End RouteClaims.

(** * The further properties at concrete requests *)


Lemma forwarded_identity_is_verified_claim_witness :
  exists a tok d,
    authorization (req Scenario.later_request) = Some a /\
    JsString.startsWith a "Bearer " = true /\
    bearer_token a = Some tok /\
    Demo.verify (Some tok) (env Scenario.later_request !! "JWT_SECRET")
      (now Scenario.later_request) = inl d /\
    {| authorization := Some "Bearer CDCB.GCCCFCGBFEGD"; user := JStr "42" |} =
      {| authorization := Some a; user := decoded_id d |}.
Proof.
  apply (forwarded_identity_is_verified_claim Demo.verify Demo.next_returns
           Scenario.later_request).
  apply elem_of_cons. right. apply elem_of_cons. left. reflexivity.
Defined.

Lemma claim_without_id_forwarded_witness :
  ENext {| authorization := Some "Bearer CDCB.GCCCFCGBFEGD";
           user := JUndefined |}
    ∈ calls Scenario.verify_sub Demo.next_returns Demo.good_request.
Proof.
  apply (claim_without_id_forwarded Scenario.verify_sub Demo.next_returns
           Demo.good_request "Bearer CDCB.GCCCFCGBFEGD"
           (DObj {[ "sub" := JStr "42" ]})).
  - reflexivity.
  - reflexivity.
  - reflexivity.
  - intros o Ho. injection Ho as <-. reflexivity.
Defined.

Lemma second_space_empties_token_witness :
  calls Demo.verify Demo.next_returns Scenario.two_spaces_after_scheme =
    [EVerify (Some EmptyString)
       (env Scenario.two_spaces_after_scheme !! "JWT_SECRET");
     EStatus 401;
     EJson {[ "message" := JStr "Invalid or expired token" ]}].
Proof.
  apply (second_space_empties_token Demo.verify Demo.next_returns
           Scenario.two_spaces_after_scheme "CDCB.GCCCFCGBFEGD").
  - exact demo_empty_token.
  - reflexivity.
Defined.

Lemma text_after_token_ignored_witness :
  head (calls Demo.verify Demo.next_returns Scenario.text_after_token) =
    Some (EVerify (Some Demo.token_42)
            (env Scenario.text_after_token !! "JWT_SECRET")) /\
  ENext {| authorization :=
             Some ("Bearer " +:+ Demo.token_42 +:+ String " " "and more");
           user := JStr "42" |}
    ∈ calls Demo.verify Demo.next_returns Scenario.text_after_token.
Proof.
  exact (text_after_token_ignored Demo.verify Demo.next_returns
           Scenario.text_after_token Demo.token_42 "and more"
           (DObj {[ "id" := JStr "42" ]}) eq_refl eq_refl eq_refl).
Defined.

Lemma calls_depend_on_header_secret_clock_witness :
  calls Demo.verify Demo.next_returns Demo.good_request =
  calls Demo.verify Demo.next_returns Scenario.later_request.
Proof.
  apply (calls_depend_on_header_secret_clock Demo.verify Demo.next_returns
           Demo.good_request Scenario.later_request).
  - reflexivity.
  - reflexivity.
  - reflexivity.
Defined.

Lemma profile_answers_with_identity_witness :
  (profile_route Demo.verify Demo.good_request).1 = Normal tt /\
  route_calls Demo.verify Demo.good_request =
    [EVerify (bearer_token "Bearer CDCB.GCCCFCGBFEGD")
       (env Demo.good_request !! "JWT_SECRET");
     ENext {| authorization := Some "Bearer CDCB.GCCCFCGBFEGD";
              user := JStr "42" |};
     EJson (<[ "user" := JStr "42" ]>
              {[ "message" := JStr "This is a protected route" ]})].
Proof.
  exact (profile_answers_with_identity Demo.verify Demo.good_request
           "Bearer CDCB.GCCCFCGBFEGD" (DObj {[ "id" := JStr "42" ]})
           eq_refl eq_refl eq_refl).
Defined.

Lemma protected_body_only_after_verification_witness :
  exists a tok d,
    authorization (req Demo.good_request) = Some a /\
    JsString.startsWith a "Bearer " = true /\
    bearer_token a = Some tok /\
    Demo.verify (Some tok) (env Demo.good_request !! "JWT_SECRET")
      (now Demo.good_request) = inl d /\
    profile_body {| authorization := None; user := JStr "42" |} !! "user" =
      Some (decoded_id d).
Proof.
  apply (protected_body_only_after_verification Demo.verify Demo.good_request
           (profile_body {| authorization := None; user := JStr "42" |})).
  - apply elem_of_cons. right. apply elem_of_cons. right.
    apply elem_of_cons. left. reflexivity.
  - reflexivity.
Defined.
